(** * UART port connection manager (src/api/index.py)

    A shallow embedding of the Flask module [src/api/index.py]: the two
    module-level dictionaries [uart_configs] and [active_connections], the
    helper [get_serial_parity], the worker [configure_uart_port] and the
    four view functions [get_ports], [configure_port], [disconnect_port]
    and [test_port].

    Python dictionaries are finite maps keyed by strings; a view function is
    a computation over the module state that either returns a value or
    raises; calls that leave the process ([os.path.exists], [serial.Serial],
    [Serial.close]) are answered by an explicit description of the host.
    Calls to [logger] write to the log and give nothing back to the program;
    they are left out. *)

From Stdlib Require Import ZArith Ascii.
From stdpp Require Import gmap strings list fin_maps.

Open Scope string_scope.
Open Scope Z_scope.

(** ** Strings *)

Module PyStr.

(** [str.lower] on the characters that matter here.  A string is read as a
    sequence of bytes; the ASCII capitals 65..90 go to 97..122.  Bytes from
    128 up (parts of non-ASCII characters) are kept: Python never maps such a
    character to one of the letters d, e, n, o, v. *)
Definition lower_ascii (c : ascii) : ascii :=
  let n := nat_of_ascii c in
  if ((65 <=? n)%nat && (n <=? 90)%nat)%bool then ascii_of_nat (n + 32) else c.

Fixpoint lower (s : string) : string :=
  match s with
  | EmptyString => EmptyString
  | String c rest => String (lower_ascii c) (lower rest)
  end.

Definition upper_ascii (c : ascii) : ascii :=
  let n := nat_of_ascii c in
  if ((97 <=? n)%nat && (n <=? 122)%nat)%bool then ascii_of_nat (n - 32) else c.

(** [same_letters s t]: [s] spells the lower-case word [t], each letter in
    either case. *)
Fixpoint same_letters (s t : string) : Prop :=
  match s, t with
  | EmptyString, EmptyString => True
  | String a s', String b t' => (a = b \/ a = upper_ascii b) /\ same_letters s' t'
  | _, _ => False
  end.

(** The letters a..z, and the words made of them. *)
Definition lowercase_letter (c : ascii) : Prop :=
  (97 <= nat_of_ascii c <= 122)%nat.

Fixpoint lowercase_word (t : string) : Prop :=
  match t with
  | EmptyString => True
  | String c t' => lowercase_letter c /\ lowercase_word t'
  end.

End PyStr.

(** ** pyserial *)

Module serial.

(** The parity constants that the module refers to. *)
Inductive Parity := PARITY_NONE | PARITY_EVEN | PARITY_ODD.

#[global] Instance Parity_eq_dec : EqDecision Parity.
Proof. solve_decision. Defined.

(** A [serial.Serial] object: the settings it was opened with (lines 58-68)
    and its [is_open] attribute. *)
Record Serial := mkSerial {
  port : string;
  baudrate : Z;
  parity : Parity;
  stopbits : Z;
  bytesize : Z;
  timeout : Z;
  xonxoff : bool;
  rtscts : bool;
  dsrdtr : bool;
  is_open : bool
}.

End serial.

(** ** Exceptions and the host *)

(** The exceptions that can travel through the module.  [SerialException] and
    [OtherException] come from outside (pyserial, the operating system);
    [NameError] and [KeyError] are raised by the interpreter.  All of them are
    subclasses of [Exception]. *)
Inductive PyExc :=
| SerialException (msg : string)
| OtherException (msg : string)
| NameError (name : string)
| KeyError (key : string).

(** [str(e)]. *)
Definition str (e : PyExc) : string :=
  match e with
  | SerialException msg => msg
  | OtherException msg => msg
  | NameError name => "name '" +:+ name +:+ "' is not defined"
  | KeyError key => "'" +:+ key +:+ "'"
  end.

(** What the machine answers during one call: whether a device path is there,
    whether opening it fails, whether closing a handle fails. *)
Record Host := mkHost {
  path_exists : string -> bool;
  open_error : string -> Z -> serial.Parity -> option PyExc;
  close_error : serial.Serial -> option PyExc
}.

(** ** Module state *)

Inductive Status := disconnected | connected | error.

#[global] Instance Status_eq_dec : EqDecision Status.
Proof. solve_decision. Defined.

(** The string the module stores for a status. *)
Definition status_str (s : Status) : string :=
  match s with
  | disconnected => "disconnected"
  | connected => "connected"
  | error => "error"
  end.

(** One value of [uart_configs]. *)
Record PortConfig := mkPortConfig {
  baud_rate : Z;
  parity : string;
  status : Status
}.

Record State := mkState {
  uart_configs : gmap string PortConfig;
  active_connections : gmap string serial.Serial
}.

(** Lines 19-23. *)
Definition UART_PORTS : list string := ["/dev/ttyAMA0"; "/dev/ttyAMA1"; "/dev/ttyAMA2"].
Definition VALID_BAUD_RATES : list Z := [9600; 19200; 38400; 57600; 115200; 230400; 460800; 921600].
Definition VALID_PARITY : list string := ["none"; "even"; "odd"].

(** Lines 26-33. *)
Definition default_config : PortConfig :=
  {| baud_rate := 9600; parity := "none"; status := disconnected |}.

Definition initial_state : State :=
  {| uart_configs :=
       <["/dev/ttyAMA0" := default_config]>
         (<["/dev/ttyAMA1" := default_config]>
            (<["/dev/ttyAMA2" := default_config]> ∅));
     active_connections := ∅ |}.

(** The names bound in the module's global namespace once the file has been
    executed: the imports of lines 1-6, the assignments and the functions.
    Neither [jsonify] nor [request] is among the names taken from flask. *)
Definition module_globals : list string :=
  ["Flask"; "redirect"; "url_for"; "render_template"; "CORS"; "serial"; "json";
   "os"; "logging"; "app"; "logger"; "UART_PORTS"; "VALID_BAUD_RATES";
   "VALID_PARITY"; "uart_configs"; "active_connections"; "get_serial_parity";
   "configure_uart_port"; "index"; "catch_all"; "get_ports"; "configure_port";
   "disconnect_port"; "test_port"].

(** The namespace the module would have, had line 1 also imported the two
    flask names the view functions use. *)
Definition globals_with_flask_names : list string :=
  "jsonify" :: "request" :: module_globals.

(** ** Computations *)

Inductive Outcome (A : Type) :=
| Returned (a : A)
| Raised (e : PyExc).
Arguments Returned {A} a.
Arguments Raised {A} e.

(** A piece of Python code: from the module state to the new state and either
    a value or a raised exception. *)
Definition M (A : Type) : Type := State -> State * Outcome A.

Definition ret {A} (a : A) : M A := fun st => (st, Returned a).
Definition raise {A} (e : PyExc) : M A := fun st => (st, Raised e).
Definition bind {A B} (c : M A) (k : A -> M B) : M B :=
  fun st => match c st with
            | (st', Returned a) => k a st'
            | (st', Raised e) => (st', Raised e)
            end.

Notation "x <- c ;; k" := (bind c (fun x => k))
  (at level 100, c at next level, right associativity).
Notation "c ;;; k" := (bind c (fun _ => k))
  (at level 100, right associativity).

(** [try: body except Exception as e: handler]. *)
Definition try_except {A} (body : M A) (handler : PyExc -> M A) : M A :=
  fun st => match body st with
            | (st', Raised e) => handler e st'
            | r => r
            end.

Definition gets {A} (f : State -> A) : M A := fun st => (st, Returned (f st)).

(** Reading a global name: [NameError] when the namespace does not bind it. *)
Definition load_global (g : list string) (name : string) : M unit :=
  if bool_decide (name ∈ g) then ret tt else raise (NameError name).

(** [uart_configs[port]]. *)
Definition config_of (port : string) : M PortConfig :=
  fun st => match uart_configs st !! port with
            | Some c => (st, Returned c)
            | None => (st, Raised (KeyError port))
            end.

Definition put_config (port : string) (c : PortConfig) : M unit :=
  fun st => ({| uart_configs := <[port := c]> (uart_configs st);
                active_connections := active_connections st |}, Returned tt).

(** [uart_configs[port]['baud_rate'] = v] and its two siblings. *)
Definition set_baud_rate (port : string) (v : Z) : M unit :=
  c <- config_of port ;;
  put_config port {| baud_rate := v; parity := parity c; status := status c |}.

Definition set_parity (port : string) (v : string) : M unit :=
  c <- config_of port ;;
  put_config port {| baud_rate := baud_rate c; parity := v; status := status c |}.

Definition set_status (port : string) (v : Status) : M unit :=
  c <- config_of port ;;
  put_config port {| baud_rate := baud_rate c; parity := parity c; status := v |}.

(** [port in active_connections]. *)
Definition in_active (port : string) : M bool :=
  gets (fun st => bool_decide (is_Some (active_connections st !! port))).

(** [active_connections[port].close()]. *)
Definition close_active (h : Host) (port : string) : M unit :=
  fun st => match active_connections st !! port with
            | None => (st, Raised (KeyError port))
            | Some ser => match close_error h ser with
                          | Some e => (st, Raised e)
                          | None => (st, Returned tt)
                          end
            end.

(** [del active_connections[port]]. *)
Definition del_active (port : string) : M unit :=
  fun st => match active_connections st !! port with
            | None => (st, Raised (KeyError port))
            | Some _ => ({| uart_configs := uart_configs st;
                            active_connections := delete port (active_connections st) |},
                         Returned tt)
            end.

(** [active_connections[port] = ser]. *)
Definition store_active (port : string) (ser : serial.Serial) : M unit :=
  fun st => ({| uart_configs := uart_configs st;
                active_connections := <[port := ser]> (active_connections st) |},
             Returned tt).

(** [serial.Serial(port=..., baudrate=..., parity=..., ...)], lines 58-68. *)
Definition new_Serial (h : Host) (port : string) (baud : Z) (par : serial.Parity)
  : M serial.Serial :=
  match open_error h port baud par with
  | Some e => raise e
  | None =>
      ret {| serial.port := port; serial.baudrate := baud; serial.parity := par;
             serial.stopbits := 1; serial.bytesize := 8; serial.timeout := 1;
             serial.xonxoff := false; serial.rtscts := false; serial.dsrdtr := false;
             serial.is_open := true |}
  end.

(** ** [get_serial_parity], lines 35-42 *)

Definition parity_map : gmap string serial.Parity :=
  <["none" := serial.PARITY_NONE]>
    (<["even" := serial.PARITY_EVEN]>
       (<["odd" := serial.PARITY_ODD]> ∅)).

Definition get_serial_parity (parity_str : string) : serial.Parity :=
  default serial.PARITY_NONE (parity_map !! PyStr.lower parity_str).

(** ** [configure_uart_port], lines 44-88 *)

Definition configure_uart_port (h : Host) (port : string) (baud : Z) (par : string)
  : M (bool * string) :=
  try_except
    (present <- in_active port ;;
     (if present : bool then close_active h port ;;; del_active port else ret tt) ;;;
     if negb (path_exists h port) then
       ret (false, "Port " +:+ port +:+ " does not exist")
     else
       ser <- new_Serial h port baud (get_serial_parity par) ;;
       store_active port ser ;;;
       set_baud_rate port baud ;;;
       set_parity port par ;;;
       set_status port connected ;;;
       ret (true, "Port " +:+ port +:+ " configured successfully"))
    (fun e =>
       match e with
       | SerialException _ =>
           set_status port error ;;;
           ret (false, "Failed to configure " +:+ port +:+ ": " +:+ str e)
       | _ =>
           set_status port error ;;;
           ret (false, "Unexpected error: " +:+ str e)
       end).

(** ** The view functions *)

(** A value found in a JSON request body. *)
Inductive PyVal := PyNone | PyInt (z : Z) | PyStr (s : string).

(** The dictionary handed to [jsonify]. *)
Inductive Payload :=
| PortsPayload (ports : gmap string PortConfig)
    (available_baud_rates : list Z) (available_parity : list string)
| MessagePayload (success : bool) (message : string)
| ConfigPayload (success : bool) (message : string) (config : PortConfig)
| DetailsPayload (success : bool) (message : string)
    (d_baudrate : Z) (d_parity : serial.Parity) (d_is_open : bool).

(** What a view function returns: the payload and the HTTP status code (200
    where the source gives none). *)
Definition Response : Type := Payload * Z.

(** [jsonify(payload), code]: the name [jsonify] is looked up first. *)
Definition respond (g : list string) (p : Payload) (code : Z) : M Response :=
  load_global g "jsonify" ;;; ret (p, code).

(** [v in l] for a list of strings, and for a list of integers; the member
    itself when it is one. *)
Definition str_member (v : PyVal) (l : list string) : option string :=
  match v with
  | PyStr s => if bool_decide (s ∈ l) then Some s else None
  | _ => None
  end.

Definition int_member (v : PyVal) (l : list Z) : option Z :=
  match v with
  | PyInt z => if bool_decide (z ∈ l) then Some z else None
  | _ => None
  end.

(** [data.get(key)]. *)
Definition dict_get (data : gmap string PyVal) (key : string) : PyVal :=
  default PyNone (data !! key).

(** [active_connections[port]]. *)
Definition active_of (port : string) : M serial.Serial :=
  fun st => match active_connections st !! port with
            | Some ser => (st, Returned ser)
            | None => (st, Raised (KeyError port))
            end.

(** Lines 114-121. *)
Definition get_ports (g : list string) : M Response :=
  load_global g "jsonify" ;;;
  ports <- gets uart_configs ;;
  ret (PortsPayload ports VALID_BAUD_RATES VALID_PARITY, 200).

(** Lines 123-160.  [json] is what [request.get_json()] returns when it
    returns: the dictionary of a JSON object whose values are strings,
    integers or null, or [None] for the JSON value null.  Requests for which
    [get_json] itself raises (no body, a body that is not JSON) and bodies
    that are not objects are outside this description. *)
Definition configure_port (g : list string) (h : Host) (json : option (gmap string PyVal))
  : M Response :=
  try_except
    (load_global g "request" ;;;
     match json with
     | None => respond g (MessagePayload false "No data provided") 400
     | Some data =>
         if bool_decide (data = ∅) then
           respond g (MessagePayload false "No data provided") 400
         else
           match str_member (dict_get data "port") UART_PORTS with
           | None => respond g (MessagePayload false "Invalid port specified") 400
           | Some port =>
               match int_member (dict_get data "baud_rate") VALID_BAUD_RATES with
               | None => respond g (MessagePayload false "Invalid baud rate") 400
               | Some baud =>
                   match str_member (dict_get data "parity") VALID_PARITY with
                   | None => respond g (MessagePayload false "Invalid parity setting") 400
                   | Some par =>
                       r <- configure_uart_port h port baud par ;;
                       if fst r then
                         load_global g "jsonify" ;;;
                         c <- config_of port ;;
                         ret (ConfigPayload true (snd r) c, 200)
                       else respond g (MessagePayload false (snd r)) 500
                   end
               end
           end
     end)
    (fun e => respond g (MessagePayload false ("Server error: " +:+ str e)) 500).

(** Lines 162-186. *)
Definition disconnect_port (g : list string) (h : Host) (port : string) : M Response :=
  try_except
    (if bool_decide (port ∉ UART_PORTS) then
       respond g (MessagePayload false "Invalid port specified") 400
     else
       present <- in_active port ;;
       (if present : bool then close_active h port ;;; del_active port else ret tt) ;;;
       set_status port disconnected ;;;
       load_global g "jsonify" ;;;
       c <- config_of port ;;
       ret (ConfigPayload true ("Port " +:+ port +:+ " disconnected") c, 200))
    (fun e => respond g (MessagePayload false ("Error disconnecting port: " +:+ str e)) 500).

(** Lines 188-216. *)
Definition test_port (g : list string) (port : string) : M Response :=
  try_except
    (if bool_decide (port ∉ UART_PORTS) then
       respond g (MessagePayload false "Invalid port specified") 400
     else
       present <- in_active port ;;
       if negb present then respond g (MessagePayload false "Port not connected") 400
       else
         ser <- active_of port ;;
         if serial.is_open ser then
           load_global g "jsonify" ;;;
           ret (DetailsPayload true ("Port " +:+ port +:+ " is active and ready")
                  (serial.baudrate ser) (serial.parity ser) (serial.is_open ser), 200)
         else respond g (MessagePayload false "Port is not open") 500)
    (fun e => respond g (MessagePayload false ("Error testing port: " +:+ str e)) 500).

(** ** Observations and runs *)

Definition has_connection (st : State) (port : string) : Prop :=
  is_Some (active_connections st !! port).

Definition status_of (st : State) (port : string) : option Status :=
  status <$> uart_configs st !! port.

(** A view function answered with success: it returned, and the payload's
    [success] field is [True]. *)
Definition is_success (o : Outcome Response) : Prop :=
  match o with
  | Returned (MessagePayload true _, _) => True
  | Returned (ConfigPayload true _ _, _) => True
  | Returned (DetailsPayload true _ _ _ _, _) => True
  | Returned (PortsPayload _ _ _, _) => True
  | _ => False
  end.

(** Every port of [UART_PORTS] has its entry in [uart_configs]. *)
Definition configs_complete (st : State) : Prop :=
  forall port, port ∈ UART_PORTS -> is_Some (uart_configs st !! port).

(** The two state-changing operations, each with the host as it is when the
    call is made. *)
Inductive Op :=
| Configure (h : Host) (port : string) (baud : Z) (par : string)
| Disconnect (h : Host) (port : string).

Definition run_op (op : Op) (st : State) : State :=
  match op with
  | Configure h port baud par => fst (configure_uart_port h port baud par st)
  | Disconnect h port => fst (disconnect_port module_globals h port st)
  end.

Definition run (ops : list Op) (st : State) : State :=
  foldl (fun s op => run_op op s) st ops.

(** Hosts used in the examples. *)
Definition host_ok : Host :=
  {| path_exists := fun _ => true; open_error := fun _ _ _ => None;
     close_error := fun _ => None |}.

Definition host_no_device : Host :=
  {| path_exists := fun _ => false; open_error := fun _ _ _ => None;
     close_error := fun _ => None |}.

Definition host_close_fails : Host :=
  {| path_exists := fun _ => true; open_error := fun _ _ _ => None;
     close_error := fun _ => Some (OtherException "[Errno 5] Input/output error") |}.

(** The state after /dev/ttyAMA0 has been configured with success at 9600
    baud without parity: the port has a handle and status connected. *)
Definition connected_state : State :=
  fst (configure_uart_port host_ok "/dev/ttyAMA0" 9600 "none" initial_state).

(** The handle of [port], if there is one, closes without raising. *)
Definition closes_cleanly (h : Host) (port : string) (st : State) : Prop :=
  forall ser, active_connections st !! port = Some ser -> close_error h ser = None.

(** Lines 48-50 go through, line 53 finds the path and line 58 returns a
    handle: the call reaches the open and the open succeeds. *)
Definition opens_successfully (h : Host) (port : string) (baud : Z) (par : string)
    (st : State) : Prop :=
  (forall ser, active_connections st !! port = Some ser -> close_error h ser = None) /\
  path_exists h port = true /\
  open_error h port baud (get_serial_parity par) = None.

(** A port has a handle exactly when its status is connected. *)
Definition consistent (st : State) : Prop :=
  forall port, has_connection st port <-> status_of st port = Some connected.

(** An operation on a known port during which the device path is present
    and no close fails (for a configure). *)
Definition steady_op (op : Op) : Prop :=
  match op with
  | Configure h port _ _ =>
      port ∈ UART_PORTS /\ path_exists h port = true /\
      forall ser, close_error h ser = None
  | Disconnect _ port => port ∈ UART_PORTS
  end.

(** A request whose port and baud rate are both outside their enumerations. *)
Definition bad_port_and_baud : gmap string PyVal :=
  <["port" := PyStr "/dev/ttyUSB0"]>
    (<["baud_rate" := PyInt 1200]> (<["parity" := PyStr "even"]> ∅)).

(** ** Closed forms and further observations *)

(** The message of the two [except] branches of [configure_uart_port]. *)
Definition failure_message (port : string) (e : PyExc) : string :=
  match e with
  | SerialException _ => "Failed to configure " +:+ port +:+ ": " +:+ str e
  | _ => "Unexpected error: " +:+ str e
  end.

(** The handle that lines 58-68 build. *)
Definition opened (port : string) (baud : Z) (par : string) : serial.Serial :=
  {| serial.port := port; serial.baudrate := baud;
     serial.parity := get_serial_parity par;
     serial.stopbits := 1; serial.bytesize := 8; serial.timeout := 1;
     serial.xonxoff := false; serial.rtscts := false; serial.dsrdtr := false;
     serial.is_open := true |}.

(** What an [except] branch of [configure_uart_port] leaves, entered with
    exception [e] when the handles are [conns]. *)
Definition after_failure (port : string) (e : PyExc) (cfgs : gmap string PortConfig)
    (conns : gmap string serial.Serial) : State * Outcome (bool * string) :=
  match cfgs !! port with
  | Some c =>
      ({| uart_configs :=
            <[port := {| baud_rate := baud_rate c; parity := parity c; status := error |}]> cfgs;
          active_connections := conns |},
       Returned (false, failure_message port e))
  | None => ({| uart_configs := cfgs; active_connections := conns |}, Raised (KeyError port))
  end.

(** What [configure_uart_port] leaves once lines 48-50 have gone through
    with the handles [conns]. *)
Definition after_close (h : Host) (port : string) (baud : Z) (par : string)
    (cfgs : gmap string PortConfig) (conns : gmap string serial.Serial)
  : State * Outcome (bool * string) :=
  if path_exists h port then
    match open_error h port baud (get_serial_parity par) with
    | Some e => after_failure port e cfgs conns
    | None =>
        match cfgs !! port with
        | Some _ =>
            ({| uart_configs :=
                  <[port := {| baud_rate := baud; parity := par; status := connected |}]> cfgs;
                active_connections := <[port := opened port baud par]> conns |},
             Returned (true, "Port " +:+ port +:+ " configured successfully"))
        | None =>
            ({| uart_configs := cfgs;
                active_connections := <[port := opened port baud par]> conns |},
             Raised (KeyError port))
        end
    end
  else ({| uart_configs := cfgs; active_connections := conns |},
        Returned (false, "Port " +:+ port +:+ " does not exist")).

(** What a view function's [return jsonify(...), code] gives in namespace
    [g]; in an [except] branch the [NameError] leaves the function. *)
Definition json_result (g : list string) (r : Response) : Outcome Response :=
  if bool_decide ("jsonify" ∈ g) then Returned r else Raised (NameError "jsonify").

(** What [disconnect_port] leaves once lines 170-172 have gone through with
    the handles [conns]. *)
Definition after_drop (g : list string) (port : string) (cfgs : gmap string PortConfig)
    (conns : gmap string serial.Serial) : State * Outcome Response :=
  match cfgs !! port with
  | Some c =>
      let c' := {| baud_rate := baud_rate c; parity := parity c; status := disconnected |} in
      ({| uart_configs := <[port := c']> cfgs; active_connections := conns |},
       json_result g (ConfigPayload true ("Port " +:+ port +:+ " disconnected") c', 200))
  | None =>
      ({| uart_configs := cfgs; active_connections := conns |},
       json_result g
         (MessagePayload false ("Error disconnecting port: " +:+ str (KeyError port)), 500))
  end.

(** A host on which the device path exists but every open is refused. *)
Definition host_open_refused : Host :=
  {| path_exists := fun _ => true;
     open_error := fun _ _ _ =>
       Some (SerialException "[Errno 13] could not open port /dev/ttyAMA0");
     close_error := fun _ => None |}.

(** One call of an API view function, with the host as it is during the
    call. *)
Inductive Request :=
| GetPorts
| PostConfigure (h : Host) (json : option (gmap string PyVal))
| PostDisconnect (h : Host) (port : string)
| PostTest (port : string).

(** The call, in the module's namespace. *)
Definition serve (rq : Request) : M Response :=
  match rq with
  | GetPorts => get_ports module_globals
  | PostConfigure h json => configure_port module_globals h json
  | PostDisconnect h port => disconnect_port module_globals h port
  | PostTest port => test_port module_globals port
  end.

(** Calls made one after the other: the final state and the outcome of
    each. *)
Fixpoint serve_all (rqs : list Request) (st : State) : State * list (Outcome Response) :=
  match rqs with
  | [] => (st, [])
  | rq :: rest =>
      let (st1, o) := serve rq st in
      let (st2, os) := serve_all rest st1 in
      (st2, o :: os)
  end.

(** A handle and the configuration recorded for its port describe the same
    settings. *)
Definition handles_match (st : State) : Prop :=
  forall p ser c,
    active_connections st !! p = Some ser -> uart_configs st !! p = Some c ->
    serial.port ser = p /\ serial.baudrate ser = baud_rate c /\
    serial.parity ser = get_serial_parity (parity c).

(** A port whose status is disconnected has no handle. *)
Definition quiet (st : State) : Prop :=
  forall p, status_of st p = Some disconnected -> active_connections st !! p = None.


(** * Properties *)

(** ** [get_serial_parity] *)

Section Lower.

Import PyStr.

Lemma lower_ascii_letter (a b : ascii) :
  lowercase_letter b ->
  lower_ascii a = b <-> (a = b \/ a = upper_ascii b).
Proof.
  unfold lowercase_letter, lower_ascii, upper_ascii. intros Hb.
  assert (Hup : ((97 <=? nat_of_ascii b)%nat && (nat_of_ascii b <=? 122)%nat)%bool = true).
  { apply andb_true_iff. split; apply Nat.leb_le; lia. }
  rewrite Hup.
  destruct ((65 <=? nat_of_ascii a)%nat && (nat_of_ascii a <=? 90)%nat)%bool eqn:Ha.
  - apply andb_true_iff in Ha as [Ha1 Ha2].
    apply Nat.leb_le in Ha1, Ha2. split.
    + intros <-. right.
      rewrite nat_ascii_embedding by lia.
      replace (nat_of_ascii a + 32 - 32)%nat with (nat_of_ascii a) by lia.
      by rewrite ascii_nat_embedding.
    + intros [-> | ->]; [lia |].
      rewrite nat_ascii_embedding by lia.
      replace (nat_of_ascii b - 32 + 32)%nat with (nat_of_ascii b) by lia.
      apply ascii_nat_embedding.
  - split; [by left |]. intros [-> | ->]; [done |].
    exfalso. rewrite nat_ascii_embedding in Ha by lia.
    apply andb_false_iff in Ha as [Ha | Ha]; apply Nat.leb_gt in Ha; lia.
Qed.

Lemma lower_same_letters (t : string) :
  lowercase_word t -> forall s, lower s = t <-> same_letters s t.
Proof.
  induction t as [| b t IH]; intros Ht s.
  - destruct s; simpl; [done | split; [discriminate | done]].
  - destruct Ht as [Hb Ht]. destruct s as [| a s]; simpl.
    + split; [discriminate | done].
    + rewrite <- (IH Ht s), <- (lower_ascii_letter a b Hb).
      split; [by intros [= -> ->] | by intros [-> ->]].
Qed.

End Lower.

Lemma get_serial_parity_cases (s : string) :
  get_serial_parity s =
    if decide (PyStr.lower s = "none") then serial.PARITY_NONE
    else if decide (PyStr.lower s = "even") then serial.PARITY_EVEN
    else if decide (PyStr.lower s = "odd") then serial.PARITY_ODD
    else serial.PARITY_NONE.
Proof.
  unfold get_serial_parity, parity_map.
  repeat case_decide;
    try match goal with H : PyStr.lower s = _ |- _ => by rewrite H end.
  by rewrite !lookup_insert_ne, lookup_empty.
Qed.

(** C10.  [get_serial_parity] is a total function of its string: whatever
    the string, it yields one of the pyserial parity constants.  The words
    none, even and odd, each letter in either case, give [PARITY_NONE],
    [PARITY_EVEN] and [PARITY_ODD]; every other string gives [PARITY_NONE]. *)
Theorem get_serial_parity_total_case_insensitive (s : string) :
  (PyStr.same_letters s "none" -> get_serial_parity s = serial.PARITY_NONE) /\
  (PyStr.same_letters s "even" -> get_serial_parity s = serial.PARITY_EVEN) /\
  (PyStr.same_letters s "odd" -> get_serial_parity s = serial.PARITY_ODD) /\
  (~ PyStr.same_letters s "none" -> ~ PyStr.same_letters s "even" ->
   ~ PyStr.same_letters s "odd" -> get_serial_parity s = serial.PARITY_NONE).
Proof.
  assert (Hn : PyStr.lowercase_word "none") by (vm_compute; intuition lia).
  assert (He : PyStr.lowercase_word "even") by (vm_compute; intuition lia).
  assert (Ho : PyStr.lowercase_word "odd") by (vm_compute; intuition lia).
  rewrite <- !(lower_same_letters _ Hn), <- !(lower_same_letters _ He),
    <- !(lower_same_letters _ Ho).
  rewrite get_serial_parity_cases.
  repeat split; intros; repeat case_decide; congruence.
Qed.

Lemma get_serial_parity_witness :
  PyStr.same_letters "EvEn" "even" /\ get_serial_parity "EvEn" = serial.PARITY_EVEN.
Proof.
  assert (H : PyStr.same_letters "EvEn" "even").
  { simpl. repeat split; (by left) || (by right). }
  split; [exact H |].
  exact (proj1 (proj2 (get_serial_parity_total_case_insensitive "EvEn")) H).
Defined.

(** ** Unfolding computations *)

Ltac unfold_m :=
  repeat progress unfold configure_uart_port, disconnect_port, test_port, get_ports,
    configure_port, respond, try_except, bind, ret, raise, gets, in_active,
    close_active, del_active, store_active, set_status, set_baud_rate,
    set_parity, config_of, put_config, new_Serial, active_of, load_global in *.

(** Rewrite with the equations at hand and evaluate, until nothing moves. *)
Ltac go :=
  repeat (cbn in *;
          try match goal with
              | H : ?x = _ |- context [?x] => rewrite H
              end);
  rewrite ?lookup_insert_eq, ?lookup_delete_eq; cbn.

Lemma not_in_UART_PORTS (port : string) :
  port ∉ UART_PORTS -> bool_decide (port ∉ UART_PORTS) = true.
Proof. intros H. by apply bool_decide_eq_true. Qed.

Lemma in_UART_PORTS (port : string) :
  port ∈ UART_PORTS -> bool_decide (port ∉ UART_PORTS) = false.
Proof. intros H. apply bool_decide_eq_false. by intros Hn. Qed.

Lemma jsonify_unbound : bool_decide ("jsonify" ∈ module_globals) = false.
Proof. reflexivity. Qed.

Lemma request_unbound : bool_decide ("request" ∈ module_globals) = false.
Proof. reflexivity. Qed.

(** With [jsonify] unbound no response can be built. *)
Lemma respond_unbound (p : Payload) (code : Z) (st : State) :
  respond module_globals p code st = (st, Raised (NameError "jsonify")).
Proof. reflexivity. Qed.

Lemma respond_bound (g : list string) (p : Payload) (code : Z) (st : State) :
  "jsonify" ∈ g -> respond g p code st = (st, Returned (p, code)).
Proof.
  intros Hg. unfold_m. by rewrite bool_decide_eq_true_2.
Qed.

(** ** [get_ports] *)

(** C3.  On every state, [get_ports] as the module defines it raises
    [NameError] for [jsonify] and returns nothing; the state is untouched. *)
Theorem get_ports_raises_name_error (st : State) :
  get_ports module_globals st = (st, Raised (NameError "jsonify")) /\
  ~ is_success (snd (get_ports module_globals st)).
Proof. split; [reflexivity | simpl; tauto]. Qed.

(** Had [jsonify] been imported, the answer would be the whole of
    [uart_configs] with the two enumerations. *)
Lemma get_ports_bound (g : list string) (st : State) :
  "jsonify" ∈ g ->
  get_ports g st =
    (st, Returned (PortsPayload (uart_configs st) VALID_BAUD_RATES VALID_PARITY, 200)).
Proof.
  intros Hg. unfold_m. by rewrite bool_decide_eq_true_2.
Qed.

(** ** [configure_uart_port] *)

Lemma configure_uart_port_missing_device h port baud par st :
  path_exists h port = false ->
  (forall ser, active_connections st !! port = Some ser -> close_error h ser = None) ->
  configure_uart_port h port baud par st =
    ({| uart_configs := uart_configs st;
        active_connections := delete port (active_connections st) |},
     Returned (false, "Port " +:+ port +:+ " does not exist")).
Proof.
  intros Hpath Hclose. destruct st as [cfgs conns]. unfold_m. cbn in *.
  destruct (conns !! port) as [ser |] eqn:E.
  - specialize (Hclose ser eq_refl). by go.
  - go. by rewrite delete_id.
Qed.

Lemma configure_uart_port_success h port baud par st c :
  uart_configs st !! port = Some c ->
  opens_successfully h port baud par st ->
  configure_uart_port h port baud par st =
    ({| uart_configs :=
          <[port := {| baud_rate := baud; parity := par; status := connected |}]>
            (uart_configs st);
        active_connections :=
          <[port := {| serial.port := port; serial.baudrate := baud;
                       serial.parity := get_serial_parity par;
                       serial.stopbits := 1; serial.bytesize := 8; serial.timeout := 1;
                       serial.xonxoff := false; serial.rtscts := false;
                       serial.dsrdtr := false; serial.is_open := true |}]>
            (active_connections st) |},
     Returned (true, "Port " +:+ port +:+ " configured successfully")).
Proof.
  intros Hc (Hclose & Hpath & Hopen). destruct st as [cfgs conns].
  unfold_m. cbn in *.
  destruct (conns !! port) as [ser |] eqn:E.
  - specialize (Hclose ser eq_refl). go. go.
    by rewrite !insert_insert_eq, insert_delete_eq.
  - go. go. by rewrite !insert_insert_eq.
Qed.

(** C6, as the code has it.  A valid [configure_uart_port] call in which the
    port's old handle, if there is one, closes without raising, the device
    path exists and the open returns a handle, stores a new open handle for
    the port with the requested settings, leaves the port's configuration at
    exactly the requested baud rate and parity with status connected, and
    returns [True] with its message; that configuration is what
    [uart_configs[port]] holds on return. *)
Theorem configure_success_stores_and_updates h port baud par st :
  port ∈ UART_PORTS -> baud ∈ VALID_BAUD_RATES -> par ∈ VALID_PARITY ->
  configs_complete st ->
  opens_successfully h port baud par st ->
  let r := configure_uart_port h port baud par st in
  (exists ser, active_connections (fst r) !! port = Some ser /\
               serial.port ser = port /\ serial.baudrate ser = baud /\
               serial.parity ser = get_serial_parity par /\
               serial.is_open ser = true) /\
  uart_configs (fst r) !! port =
    Some {| baud_rate := baud; parity := par; status := connected |} /\
  status_of (fst r) port = Some connected /\
  snd r = Returned (true, "Port " +:+ port +:+ " configured successfully").
Proof.
  intros Hport _ _ Hwf Hopen r. subst r.
  destruct (Hwf port Hport) as [c Hc].
  rewrite (configure_uart_port_success h port baud par st c Hc Hopen).
  unfold status_of. cbn. rewrite !lookup_insert_eq. cbn.
  repeat split; eauto 10.
Qed.

Lemma initial_state_complete : configs_complete initial_state.
Proof.
  intros port Hport. unfold UART_PORTS in Hport.
  repeat (apply elem_of_cons in Hport as [-> | Hport]; [by eexists |]).
  by apply elem_of_nil in Hport.
Qed.

Lemma connected_state_complete : configs_complete connected_state.
Proof.
  intros port Hport. unfold UART_PORTS in Hport.
  repeat (apply elem_of_cons in Hport as [-> | Hport]; [vm_compute; by eexists |]).
  by apply elem_of_nil in Hport.
Qed.

Lemma configure_success_witness :
  (status_of connected_state "/dev/ttyAMA0" = Some connected /\
   active_connections connected_state !! "/dev/ttyAMA0" =
     Some (opened "/dev/ttyAMA0" 9600 "none")) /\
  let r := configure_uart_port host_ok "/dev/ttyAMA0" 115200 "even" connected_state in
  (exists ser, active_connections (fst r) !! "/dev/ttyAMA0" = Some ser /\
               serial.port ser = "/dev/ttyAMA0" /\ serial.baudrate ser = 115200 /\
               serial.parity ser = get_serial_parity "even" /\
               serial.is_open ser = true) /\
  uart_configs (fst r) !! "/dev/ttyAMA0" =
    Some {| baud_rate := 115200; parity := "even"; status := connected |} /\
  status_of (fst r) "/dev/ttyAMA0" = Some connected /\
  snd r = Returned (true, "Port " +:+ "/dev/ttyAMA0" +:+ " configured successfully").
Proof.
  assert (Hport : "/dev/ttyAMA0" ∈ UART_PORTS)
    by (apply (bool_decide_unpack _); vm_compute; exact I).
  assert (Hbaud : 115200 ∈ VALID_BAUD_RATES)
    by (apply (bool_decide_unpack _); vm_compute; exact I).
  assert (Hpar : "even" ∈ VALID_PARITY)
    by (apply (bool_decide_unpack _); vm_compute; exact I).
  assert (Hopen : opens_successfully host_ok "/dev/ttyAMA0" 115200 "even" connected_state).
  { split; [| split]; [intros ser Hser; reflexivity | reflexivity | reflexivity]. }
  split; [split; vm_compute; reflexivity |].
  exact (configure_success_stores_and_updates host_ok "/dev/ttyAMA0" 115200 "even"
           connected_state Hport Hbaud Hpar connected_state_complete Hopen).
Defined.

(** C6 as the specification states it fails where the port already has a
    handle whose close raises: the request is valid, the device path exists
    and the open would return a handle, yet the call returns [False], keeps
    the old handle and the old baud rate and parity, and sets status error. *)
Lemma configure_blocked_by_close_error :
  let r := configure_uart_port host_close_fails "/dev/ttyAMA0" 115200 "even"
             connected_state in
  path_exists host_close_fails "/dev/ttyAMA0" = true /\
  open_error host_close_fails "/dev/ttyAMA0" 115200 (get_serial_parity "even") = None /\
  snd r = Returned (false, "Unexpected error: [Errno 5] Input/output error") /\
  uart_configs (fst r) !! "/dev/ttyAMA0" =
    Some {| baud_rate := 9600; parity := "none"; status := error |} /\
  active_connections (fst r) !! "/dev/ttyAMA0" = Some (opened "/dev/ttyAMA0" 9600 "none") /\
  ~ (uart_configs (fst r) !! "/dev/ttyAMA0" =
       Some {| baud_rate := 115200; parity := "even"; status := connected |} /\
     snd r = Returned (true, "Port /dev/ttyAMA0 configured successfully")).
Proof.
  vm_compute. repeat split; try reflexivity. intros [H _]. discriminate.
Qed.

(** C2.  Configuring a port whose device path is absent returns failure and
    creates no handle, but the status is left as it was: from the initial
    state it is still disconnected, not error. *)
Theorem configure_missing_device_keeps_status :
  let r := configure_uart_port host_no_device "/dev/ttyAMA1" 9600 "none" initial_state in
  snd r = Returned (false, "Port /dev/ttyAMA1 does not exist") /\
  status_of (fst r) "/dev/ttyAMA1" = Some disconnected /\
  status_of (fst r) "/dev/ttyAMA1" <> Some error /\
  ~ has_connection (fst r) "/dev/ttyAMA1".
Proof.
  vm_compute. repeat split; try discriminate. intros [ser Hser]. discriminate.
Qed.

(** C1.  From the initial state, a successful configure of a port followed by
    a configure of the same port after its device path has gone leaves the
    port with status connected and no handle. *)
Theorem invariant_broken_after_device_removed :
  let st := run [Configure host_ok "/dev/ttyAMA0" 9600 "none";
                 Configure host_no_device "/dev/ttyAMA0" 9600 "none"] initial_state in
  status_of st "/dev/ttyAMA0" = Some connected /\ ~ has_connection st "/dev/ttyAMA0" /\
  ~ (has_connection st "/dev/ttyAMA0" <-> status_of st "/dev/ttyAMA0" = Some connected).
Proof.
  vm_compute. split; [reflexivity |].
  assert (Hno : ~ (exists ser : serial.Serial, None = Some ser)).
  { intros [ser Hser]. discriminate. }
  split; [exact Hno |]. intros [_ Hback]. apply Hno, Hback. reflexivity.
Qed.

(** The other way the two maps drift apart: when closing the old handle fails
    inside [configure_uart_port], the handle stays and the status is error. *)
Lemma configure_close_failure_keeps_handle :
  let st := run [Configure host_ok "/dev/ttyAMA0" 9600 "none";
                 Configure host_close_fails "/dev/ttyAMA0" 9600 "none"] initial_state in
  status_of st "/dev/ttyAMA0" = Some error /\ has_connection st "/dev/ttyAMA0".
Proof. vm_compute. split; [reflexivity | by eexists]. Qed.

(** ** [disconnect_port] *)

Lemma disconnect_port_clean g h port st c :
  port ∈ UART_PORTS ->
  uart_configs st !! port = Some c ->
  closes_cleanly h port st ->
  let c' := {| baud_rate := baud_rate c; parity := parity c; status := disconnected |} in
  let st' := {| uart_configs := <[port := c']> (uart_configs st);
                active_connections := delete port (active_connections st) |} in
  disconnect_port g h port st =
    (st', if bool_decide ("jsonify" ∈ g)
          then Returned (ConfigPayload true ("Port " +:+ port +:+ " disconnected") c', 200)
          else Raised (NameError "jsonify")).
Proof.
  intros Hport Hc Hclose. unfold closes_cleanly in Hclose.
  destruct st as [cfgs conns]. unfold_m.
  rewrite (in_UART_PORTS _ Hport).
  destruct (bool_decide ("jsonify" ∈ g)) eqn:Hg; cbn in *;
    destruct (conns !! port) as [ser |] eqn:E;
    try specialize (Hclose ser eq_refl); go; go;
    try (rewrite delete_id by done); done.
Qed.

Lemma disconnect_port_close_error g h port st ser e :
  port ∈ UART_PORTS ->
  active_connections st !! port = Some ser ->
  close_error h ser = Some e ->
  disconnect_port g h port st =
    (st, if bool_decide ("jsonify" ∈ g)
         then Returned (MessagePayload false ("Error disconnecting port: " +:+ str e), 500)
         else Raised (NameError "jsonify")).
Proof.
  intros Hport Hser He. destruct st as [cfgs conns]. unfold_m.
  rewrite (in_UART_PORTS _ Hport).
  destruct (bool_decide ("jsonify" ∈ g)) eqn:Hg; by go.
Qed.

Lemma not_success_either_way (b : bool) (p : Payload) (code : Z) (name : string) :
  (match p with MessagePayload false _ => True | _ => False end) ->
  ~ is_success (if b then Returned (p, code) else Raised (NameError name)).
Proof. destruct b, p as [| [] | |]; simpl; tauto. Qed.

(** C4, as the code has it.  For a port of [UART_PORTS] in a state where
    every such port has its configuration: if the port has no handle, or its
    handle closes without raising, [disconnect_port] removes the handle and
    sets the status to disconnected, keeping baud rate and parity; if closing
    the handle raises, the error reaches the catch-all handler, both maps are
    left exactly as they were and the answer is not a success. *)
Theorem disconnect_port_effect g h port st :
  port ∈ UART_PORTS ->
  configs_complete st ->
  let r := disconnect_port g h port st in
  (closes_cleanly h port st ->
   status_of (fst r) port = Some disconnected /\
   ~ has_connection (fst r) port /\
   baud_rate <$> uart_configs (fst r) !! port = baud_rate <$> uart_configs st !! port /\
   parity <$> uart_configs (fst r) !! port = parity <$> uart_configs st !! port) /\
  (forall ser e,
     active_connections st !! port = Some ser -> close_error h ser = Some e ->
     fst r = st /\ ~ is_success (snd r)).
Proof.
  intros Hport Hwf r. subst r. destruct (Hwf port Hport) as [c Hc]. split.
  - intros Hclose.
    rewrite (disconnect_port_clean g h port st c Hport Hc Hclose).
    unfold status_of, has_connection. cbn.
    rewrite lookup_insert_eq, lookup_delete_eq, Hc. cbn.
    repeat split; try done.
  - intros ser e Hser He.
    rewrite (disconnect_port_close_error g h port st ser e Hport Hser He). cbn.
    split; [done |]. by apply not_success_either_way.
Qed.

Lemma disconnect_port_effect_witness :
  (status_of connected_state "/dev/ttyAMA0" = Some connected /\
   has_connection connected_state "/dev/ttyAMA0") /\
  (let r := disconnect_port module_globals host_ok "/dev/ttyAMA0" connected_state in
   status_of (fst r) "/dev/ttyAMA0" = Some disconnected /\
   ~ has_connection (fst r) "/dev/ttyAMA0" /\
   baud_rate <$> uart_configs (fst r) !! "/dev/ttyAMA0" =
     baud_rate <$> uart_configs connected_state !! "/dev/ttyAMA0" /\
   parity <$> uart_configs (fst r) !! "/dev/ttyAMA0" =
     parity <$> uart_configs connected_state !! "/dev/ttyAMA0") /\
  (let r := disconnect_port module_globals host_close_fails "/dev/ttyAMA0"
              connected_state in
   fst r = connected_state /\ ~ is_success (snd r)).
Proof.
  assert (Hport : "/dev/ttyAMA0" ∈ UART_PORTS)
    by (apply (bool_decide_unpack _); vm_compute; exact I).
  assert (Hclose : closes_cleanly host_ok "/dev/ttyAMA0" connected_state)
    by (intros ser Hser; reflexivity).
  assert (Hser : active_connections connected_state !! "/dev/ttyAMA0" =
                 Some (opened "/dev/ttyAMA0" 9600 "none"))
    by (vm_compute; reflexivity).
  split; [split; [vm_compute; reflexivity | eexists; exact Hser] |].
  split.
  - exact (proj1 (disconnect_port_effect module_globals host_ok "/dev/ttyAMA0"
                    connected_state Hport connected_state_complete) Hclose).
  - exact (proj2 (disconnect_port_effect module_globals host_close_fails "/dev/ttyAMA0"
                    connected_state Hport connected_state_complete)
             (opened "/dev/ttyAMA0" 9600 "none")
             (OtherException "[Errno 5] Input/output error") Hser eq_refl).
Defined.

(** C4 as the specification states it fails where the close raises: the
    status stays connected and the handle stays, and the answer is not a
    success, whether or not [jsonify] is bound. *)
Lemma disconnect_close_error_not_swallowed :
  let st := run [Configure host_ok "/dev/ttyAMA0" 9600 "none"] initial_state in
  let r := disconnect_port module_globals host_close_fails "/dev/ttyAMA0" st in
  status_of (fst r) "/dev/ttyAMA0" = Some connected /\
  has_connection (fst r) "/dev/ttyAMA0" /\
  snd (disconnect_port globals_with_flask_names host_close_fails "/dev/ttyAMA0" st) =
    Returned (MessagePayload false
                "Error disconnecting port: [Errno 5] Input/output error", 500) /\
  ~ (is_success (snd r) /\ status_of (fst r) "/dev/ttyAMA0" = Some disconnected).
Proof.
  vm_compute. split; [reflexivity |]. split; [by eexists |].
  split; [reflexivity |]. intros [[] _].
Qed.

(** C8, as the code has it.  For a port of [UART_PORTS] whose handle, if any,
    closes without raising in the first call: the status is disconnected
    after the first call and after the second, and the second call leaves the
    state exactly as the first left it. *)
Theorem disconnect_port_twice g h1 h2 port st :
  port ∈ UART_PORTS ->
  configs_complete st ->
  closes_cleanly h1 port st ->
  let s1 := fst (disconnect_port g h1 port st) in
  let s2 := fst (disconnect_port g h2 port s1) in
  status_of s1 port = Some disconnected /\
  status_of s2 port = Some disconnected /\
  s2 = s1.
Proof.
  intros Hport Hwf Hclose s1 s2. subst s2 s1.
  destruct (Hwf port Hport) as [c Hc].
  rewrite (disconnect_port_clean g h1 port st c Hport Hc Hclose). cbn.
  set (c' := {| baud_rate := baud_rate c; parity := parity c; status := disconnected |}).
  set (s1 := {| uart_configs := <[port := c']> (uart_configs st);
                active_connections := delete port (active_connections st) |}).
  assert (Hc1 : uart_configs s1 !! port = Some c') by apply lookup_insert_eq.
  assert (Hclose1 : closes_cleanly h2 port s1).
  { intros ser Hser. cbn in Hser. by rewrite lookup_delete_eq in Hser. }
  rewrite (disconnect_port_clean g h2 port s1 c' Hport Hc1 Hclose1). cbn.
  unfold status_of. rewrite Hc1. cbn. rewrite lookup_insert_eq. cbn.
  repeat split. subst s1. f_equal.
  - by rewrite insert_insert_eq.
  - by rewrite delete_delete_eq.
Qed.

Lemma disconnect_port_twice_witness :
  (status_of connected_state "/dev/ttyAMA0" = Some connected /\
   has_connection connected_state "/dev/ttyAMA0") /\
  let s1 := fst (disconnect_port module_globals host_ok "/dev/ttyAMA0" connected_state) in
  let s2 := fst (disconnect_port module_globals host_close_fails "/dev/ttyAMA0" s1) in
  status_of s1 "/dev/ttyAMA0" = Some disconnected /\
  status_of s2 "/dev/ttyAMA0" = Some disconnected /\
  s2 = s1.
Proof.
  assert (Hport : "/dev/ttyAMA0" ∈ UART_PORTS)
    by (apply (bool_decide_unpack _); vm_compute; exact I).
  assert (Hclose : closes_cleanly host_ok "/dev/ttyAMA0" connected_state)
    by (intros ser Hser; reflexivity).
  split; [split; [vm_compute; reflexivity | vm_compute; by eexists] |].
  exact (disconnect_port_twice module_globals host_ok host_close_fails "/dev/ttyAMA0"
           connected_state Hport connected_state_complete Hclose).
Defined.

(** C8 as the specification states it fails where the close raises: after
    the first of two calls the status is still connected. *)
Lemma disconnect_twice_close_error :
  let st := run [Configure host_ok "/dev/ttyAMA0" 9600 "none"] initial_state in
  let r1 := disconnect_port module_globals host_close_fails "/dev/ttyAMA0" st in
  let r2 := disconnect_port module_globals host_close_fails "/dev/ttyAMA0" (fst r1) in
  status_of (fst r1) "/dev/ttyAMA0" = Some connected /\
  status_of (fst r2) "/dev/ttyAMA0" = Some connected /\
  ~ (status_of (fst r1) "/dev/ttyAMA0" = Some disconnected /\
     status_of (fst r2) "/dev/ttyAMA0" = Some disconnected /\
     is_success (snd r2) /\ fst r2 = fst r1).
Proof.
  vm_compute. split; [reflexivity |]. split; [reflexivity |].
  intros [H _]. discriminate.
Qed.

(** ** [test_port] *)

(** C7.  For every port and state, [test_port] as the module defines it
    raises [NameError] for [jsonify] and leaves the state untouched: with or
    without a handle, open or closed, no "not connected" answer is produced. *)
Theorem test_port_raises_name_error (port : string) (st : State) :
  test_port module_globals port st = (st, Raised (NameError "jsonify")).
Proof.
  destruct st as [cfgs conns]. unfold_m. rewrite jsonify_unbound.
  destruct (bool_decide (port ∉ UART_PORTS)); [reflexivity |].
  cbn. destruct (conns !! port) as [ser |] eqn:E; go; [| reflexivity].
  by destruct (serial.is_open ser).
Qed.

(** Had [jsonify] been imported: the "not connected" answer exactly when the
    port has no handle, a failure for a closed handle, and no change of state
    in any case. *)
Lemma test_port_bound (g : list string) (port : string) (st : State) :
  "jsonify" ∈ g ->
  port ∈ UART_PORTS ->
  test_port g port st =
    (st, Returned
           match active_connections st !! port with
           | None => (MessagePayload false "Port not connected", 400)
           | Some ser =>
               if serial.is_open ser then
                 (DetailsPayload true ("Port " +:+ port +:+ " is active and ready")
                    (serial.baudrate ser) (serial.parity ser) true, 200)
               else (MessagePayload false "Port is not open", 500)
           end).
Proof.
  intros Hg Hport. destruct st as [cfgs conns]. unfold_m.
  rewrite (in_UART_PORTS _ Hport), (bool_decide_eq_true_2 _ Hg).
  cbn. destruct (conns !! port) as [ser |] eqn:E; go; [| reflexivity].
  by destruct (serial.is_open ser) eqn:Ho.
Qed.

(** ** [configure_port] *)

Lemma configure_port_unbound h json st :
  configure_port module_globals h json st = (st, Raised (NameError "jsonify")).
Proof. reflexivity. Qed.

Lemma disconnect_port_unknown g h port st :
  port ∉ UART_PORTS ->
  disconnect_port g h port st =
    (st, if bool_decide ("jsonify" ∈ g)
         then Returned (MessagePayload false "Invalid port specified", 400)
         else Raised (NameError "jsonify")).
Proof.
  intros Hport. unfold_m. rewrite (not_in_UART_PORTS _ Hport).
  by destruct (bool_decide ("jsonify" ∈ g)).
Qed.

(** C5.  For an identifier outside [UART_PORTS], the three view functions as
    the module defines them leave both maps unchanged, but none of them
    returns the "Invalid port specified" answer: each raises [NameError]. *)
Theorem unknown_port_raises_name_error h (port : string) (data : gmap string PyVal) st :
  port ∉ UART_PORTS ->
  dict_get data "port" = PyStr port ->
  configure_port module_globals h (Some data) st = (st, Raised (NameError "jsonify")) /\
  disconnect_port module_globals h port st = (st, Raised (NameError "jsonify")) /\
  test_port module_globals port st = (st, Raised (NameError "jsonify")).
Proof.
  intros Hport _. split; [apply configure_port_unbound |].
  split; [by rewrite (disconnect_port_unknown _ h port st Hport) |].
  unfold_m. by rewrite (not_in_UART_PORTS _ Hport).
Qed.

Lemma unknown_port_witness :
  let st := initial_state in
  let data : gmap string PyVal := <["port" := PyStr "/dev/ttyUSB0"]> ∅ in
  configure_port module_globals host_ok (Some data) st = (st, Raised (NameError "jsonify")) /\
  disconnect_port module_globals host_ok "/dev/ttyUSB0" st = (st, Raised (NameError "jsonify")) /\
  test_port module_globals "/dev/ttyUSB0" st = (st, Raised (NameError "jsonify")).
Proof.
  assert (Hport : "/dev/ttyUSB0" ∉ UART_PORTS)
    by (apply (bool_decide_unpack _); vm_compute; exact I).
  assert (Hdata : dict_get (<["port" := PyStr "/dev/ttyUSB0"]> ∅) "port" = PyStr "/dev/ttyUSB0")
    by reflexivity.
  exact (unknown_port_raises_name_error host_ok "/dev/ttyUSB0" _ initial_state
           Hport Hdata).
Defined.

(** C9.  On a request invalid in port and in baud rate, [configure_port] as
    the module defines it mutates nothing, and reports no field at all: it
    raises [NameError] instead of returning the invalid-port answer. *)
Theorem configure_port_reports_no_field :
  let r := configure_port module_globals host_ok (Some bad_port_and_baud) initial_state in
  r = (initial_state, Raised (NameError "jsonify")) /\
  snd r <> Returned (MessagePayload false "Invalid port specified", 400).
Proof. split; [reflexivity | discriminate]. Qed.

(** Had both names been imported, the checks would run in the order port,
    baud rate, parity, answering for the first that fails and touching
    nothing. *)
Lemma configure_port_validation_order g h (data : gmap string PyVal) st :
  "request" ∈ g -> "jsonify" ∈ g -> data <> ∅ ->
  (str_member (dict_get data "port") UART_PORTS = None ->
   configure_port g h (Some data) st =
     (st, Returned (MessagePayload false "Invalid port specified", 400))) /\
  (forall port,
     str_member (dict_get data "port") UART_PORTS = Some port ->
     int_member (dict_get data "baud_rate") VALID_BAUD_RATES = None ->
     configure_port g h (Some data) st =
       (st, Returned (MessagePayload false "Invalid baud rate", 400))) /\
  (forall port baud,
     str_member (dict_get data "port") UART_PORTS = Some port ->
     int_member (dict_get data "baud_rate") VALID_BAUD_RATES = Some baud ->
     str_member (dict_get data "parity") VALID_PARITY = None ->
     configure_port g h (Some data) st =
       (st, Returned (MessagePayload false "Invalid parity setting", 400))).
Proof.
  intros Hr Hj Hdata.
  assert (Hne : bool_decide (data = ∅) = false) by (by apply bool_decide_eq_false).
  repeat split; intros; unfold configure_port, respond, load_global, try_except, bind, ret;
    rewrite (bool_decide_eq_true_2 _ Hr), (bool_decide_eq_true_2 _ Hj), Hne;
    repeat match goal with H : _ = _ |- _ => rewrite H end; reflexivity.
Qed.

Lemma bad_port_and_baud_bound :
  configure_port globals_with_flask_names host_ok (Some bad_port_and_baud) initial_state =
    (initial_state, Returned (MessagePayload false "Invalid port specified", 400)).
Proof. reflexivity. Qed.

(** The view function puts the updated configuration in its success answer,
    had both names been imported. *)
Lemma configure_port_success_bound :
  snd (configure_port globals_with_flask_names host_ok
         (Some (<["port" := PyStr "/dev/ttyAMA0"]>
                  (<["baud_rate" := PyInt 115200]> (<["parity" := PyStr "even"]> ∅))))
         initial_state) =
    Returned (ConfigPayload true "Port /dev/ttyAMA0 configured successfully"
                {| baud_rate := 115200; parity := "even"; status := connected |}, 200).
Proof. vm_compute. reflexivity. Qed.

(** ** Where the two maps do agree *)

Lemma configure_uart_port_open_error h port baud par st c e :
  uart_configs st !! port = Some c ->
  closes_cleanly h port st ->
  path_exists h port = true ->
  open_error h port baud (get_serial_parity par) = Some e ->
  fst (configure_uart_port h port baud par st) =
    {| uart_configs :=
         <[port := {| baud_rate := baud_rate c; parity := parity c; status := error |}]>
           (uart_configs st);
       active_connections := delete port (active_connections st) |}.
Proof.
  intros Hc Hclose Hpath Hopen. unfold closes_cleanly in Hclose.
  destruct st as [cfgs conns]. unfold_m. cbn in *.
  destruct (conns !! port) as [ser |] eqn:E;
    try specialize (Hclose ser eq_refl); destruct e; go; go;
    try (rewrite delete_id by done); done.
Qed.

Lemma initial_state_consistent : consistent initial_state.
Proof.
  intros port. unfold has_connection, status_of. cbn.
  rewrite lookup_empty. split; [by intros [ser Hser] |].
  intros H. exfalso.
  destruct (decide (port = "/dev/ttyAMA0")) as [-> | H0]; [discriminate |].
  destruct (decide (port = "/dev/ttyAMA1")) as [-> | H1]; [discriminate |].
  destruct (decide (port = "/dev/ttyAMA2")) as [-> | H2]; [discriminate |].
  by rewrite !lookup_insert_ne, lookup_empty in H.
Qed.

(** A state that differs from [st] at one port only, where handle and status
    agree, is consistent if [st] is, and keeps every configuration entry. *)
Lemma update_one_port st port c' (conns' : gmap string serial.Serial) :
  configs_complete st -> consistent st ->
  (forall p, p <> port -> conns' !! p = active_connections st !! p) ->
  (is_Some (conns' !! port) <-> status c' = connected) ->
  let st' := {| uart_configs := <[port := c']> (uart_configs st);
                active_connections := conns' |} in
  configs_complete st' /\ consistent st'.
Proof.
  intros Hwf Hcons Hother Hport st'. split.
  - intros p Hp. cbn. destruct (decide (port = p)) as [-> | Hne].
    + rewrite lookup_insert_eq. by eexists.
    + rewrite lookup_insert_ne by done. by apply Hwf.
  - intros p. unfold has_connection, status_of. cbn.
    destruct (decide (port = p)) as [-> | Hne].
    + rewrite lookup_insert_eq. cbn. rewrite Hport.
      split; [by intros -> | by intros [= ->]].
    + rewrite lookup_insert_ne, Hother by done. apply Hcons.
Qed.

Lemma steady_op_preserves op st :
  steady_op op -> configs_complete st -> consistent st ->
  configs_complete (run_op op st) /\ consistent (run_op op st).
Proof.
  intros Hop Hwf Hcons. destruct op as [h port baud par | h port]; cbn in *.
  - destruct Hop as (Hport & Hpath & Hclose).
    destruct (Hwf port Hport) as [c Hc].
    assert (Hcl : closes_cleanly h port st) by (intros ser _; apply Hclose).
    destruct (open_error h port baud (get_serial_parity par)) as [e |] eqn:Hopen.
    + rewrite (configure_uart_port_open_error h port baud par st c e Hc Hcl Hpath Hopen).
      apply update_one_port; try done.
      * intros p Hp. by rewrite lookup_delete_ne.
      * rewrite lookup_delete_eq. cbn. split; [by intros [ser Hser] | done].
    + rewrite (configure_uart_port_success h port baud par st c Hc (conj Hcl (conj Hpath Hopen))).
      cbn. apply update_one_port; try done.
      * intros p Hp. by rewrite lookup_insert_ne.
      * rewrite lookup_insert_eq. cbn. split; [done | by eexists].
  - destruct (Hwf port Hop) as [c Hc].
    destruct (active_connections st !! port) as [ser |] eqn:E.
    + destruct (close_error h ser) as [e |] eqn:He.
      * by rewrite (disconnect_port_close_error _ h port st ser e Hop E He).
      * rewrite (disconnect_port_clean _ h port st c Hop Hc); cbn.
        -- apply update_one_port; try done.
           ++ intros p Hp. by rewrite lookup_delete_ne.
           ++ rewrite lookup_delete_eq. cbn. split; [by intros [s Hs] | done].
        -- intros s Hs. congruence.
    + rewrite (disconnect_port_clean _ h port st c Hop Hc); cbn.
      * apply update_one_port; try done.
        -- intros p Hp. by rewrite lookup_delete_ne.
        -- rewrite lookup_delete_eq. cbn. split; [by intros [s Hs] | done].
      * intros s Hs. congruence.
Qed.

(** Along runs in which every configure finds its device path and closes
    without error, handle and status agree for every port after every
    operation. *)
Lemma steady_run_consistent ops st :
  Forall steady_op ops -> configs_complete st -> consistent st ->
  configs_complete (run ops st) /\ consistent (run ops st).
Proof.
  intros Hops. revert st.
  induction Hops as [| op ops Hop _ IH]; intros st Hwf Hcons; [done |].
  destruct (steady_op_preserves op st Hop Hwf Hcons) as [Hwf' Hcons'].
  exact (IH _ Hwf' Hcons').
Qed.

(** * Further properties *)

(** Evaluate, rewriting with the equations at hand and the lookups of
    updated maps, until nothing moves. *)
Ltac grind :=
  repeat (cbn in *;
          first [ match goal with
                  | H : ?x = _ |- context [?x] => rewrite H
                  end
                | rewrite lookup_insert_eq
                | rewrite lookup_delete_eq ]);
  cbn in *.

Lemma configure_uart_port_unfold h port baud par st :
  configure_uart_port h port baud par st =
    match active_connections st !! port with
    | Some ser =>
        match close_error h ser with
        | Some e => after_failure port e (uart_configs st) (active_connections st)
        | None => after_close h port baud par (uart_configs st)
                    (delete port (active_connections st))
        end
    | None => after_close h port baud par (uart_configs st) (active_connections st)
    end.
Proof.
  destruct st as [cfgs conns]. unfold after_close, after_failure, opened. unfold_m. cbn.
  destruct (conns !! port) as [ser |] eqn:E; grind.
  - destruct (close_error h ser) as [e |] eqn:Hclose; grind.
    + destruct (cfgs !! port) as [c |] eqn:Hc; destruct e; grind; reflexivity.
    + destruct (path_exists h port) eqn:Hpath; grind; [| reflexivity].
      destruct (open_error h port baud (get_serial_parity par)) as [e |] eqn:Hopen; grind.
      * destruct (cfgs !! port) as [c |] eqn:Hc; destruct e; grind; reflexivity.
      * destruct (cfgs !! port) as [c |] eqn:Hc; grind; [| reflexivity].
        by rewrite !insert_insert_eq.
  - destruct (path_exists h port) eqn:Hpath; grind; [| reflexivity].
    destruct (open_error h port baud (get_serial_parity par)) as [e |] eqn:Hopen; grind.
    + destruct (cfgs !! port) as [c |] eqn:Hc; destruct e; grind; reflexivity.
    + destruct (cfgs !! port) as [c |] eqn:Hc; grind; [| reflexivity].
      by rewrite !insert_insert_eq.
Qed.

Lemma disconnect_port_unfold g h port st :
  disconnect_port g h port st =
    if bool_decide (port ∉ UART_PORTS) then
      (st, json_result g (MessagePayload false "Invalid port specified", 400))
    else
      match active_connections st !! port with
      | Some ser =>
          match close_error h ser with
          | Some e =>
              (st, json_result g
                     (MessagePayload false ("Error disconnecting port: " +:+ str e), 500))
          | None => after_drop g port (uart_configs st) (delete port (active_connections st))
          end
      | None => after_drop g port (uart_configs st) (active_connections st)
      end.
Proof.
  destruct st as [cfgs conns]. unfold after_drop, json_result. unfold_m.
  destruct (bool_decide (port ∉ UART_PORTS)); destruct (bool_decide ("jsonify" ∈ g));
    try reflexivity; cbn;
    (destruct (conns !! port) as [ser |] eqn:E; grind;
     [destruct (close_error h ser) as [e |] eqn:Hclose; grind; try reflexivity |]);
    destruct (cfgs !! port) as [c |] eqn:Hc; grind; reflexivity.
Qed.

Lemma test_port_unfold g port st :
  test_port g port st =
    (st, json_result g
           (if bool_decide (port ∉ UART_PORTS) then
              (MessagePayload false "Invalid port specified", 400)
            else
              match active_connections st !! port with
              | None => (MessagePayload false "Port not connected", 400)
              | Some ser =>
                  if serial.is_open ser then
                    (DetailsPayload true ("Port " +:+ port +:+ " is active and ready")
                       (serial.baudrate ser) (serial.parity ser) true, 200)
                  else (MessagePayload false "Port is not open", 500)
              end)).
Proof.
  destruct st as [cfgs conns]. unfold json_result. unfold_m.
  destruct (bool_decide (port ∉ UART_PORTS)); destruct (bool_decide ("jsonify" ∈ g));
    try reflexivity; cbn;
    (destruct (conns !! port) as [ser |] eqn:E; grind; [| reflexivity]);
    destruct (serial.is_open ser) eqn:Ho; grind; reflexivity.
Qed.

(** ** Other ports *)

(** X1.  [configure_uart_port] reads and writes the entries of its own port
    only: whatever the host answers and however the call ends, the
    configuration and the handle of every other port are as before. *)
Theorem configure_uart_port_other_ports h port baud par st (q : string) :
  q <> port ->
  uart_configs (fst (configure_uart_port h port baud par st)) !! q = uart_configs st !! q /\
  active_connections (fst (configure_uart_port h port baud par st)) !! q =
    active_connections st !! q.
Proof.
  intros Hq. rewrite configure_uart_port_unfold. unfold after_close, after_failure.
  repeat case_match; cbn; rewrite ?lookup_insert_ne, ?lookup_delete_ne by done; done.
Qed.

Lemma configure_uart_port_other_ports_witness :
  let st' := fst (configure_uart_port host_ok "/dev/ttyAMA0" 115200 "even" initial_state) in
  uart_configs st' !! "/dev/ttyAMA1" = uart_configs initial_state !! "/dev/ttyAMA1" /\
  active_connections st' !! "/dev/ttyAMA1" = active_connections initial_state !! "/dev/ttyAMA1".
Proof.
  apply (configure_uart_port_other_ports host_ok "/dev/ttyAMA0" 115200 "even"
           initial_state "/dev/ttyAMA1").
  discriminate.
Defined.

(** X2.  [disconnect_port] likewise leaves the configuration and the handle
    of every other port as they were, in any namespace. *)
Theorem disconnect_port_other_ports g h port st (q : string) :
  q <> port ->
  uart_configs (fst (disconnect_port g h port st)) !! q = uart_configs st !! q /\
  active_connections (fst (disconnect_port g h port st)) !! q = active_connections st !! q.
Proof.
  intros Hq. rewrite disconnect_port_unfold. unfold after_drop.
  repeat case_match; cbn; rewrite ?lookup_insert_ne, ?lookup_delete_ne by done; done.
Qed.

Lemma disconnect_port_other_ports_witness :
  let st := fst (configure_uart_port host_ok "/dev/ttyAMA1" 9600 "odd" initial_state) in
  let st' := fst (disconnect_port module_globals host_ok "/dev/ttyAMA0" st) in
  uart_configs st' !! "/dev/ttyAMA1" = uart_configs st !! "/dev/ttyAMA1" /\
  active_connections st' !! "/dev/ttyAMA1" = active_connections st !! "/dev/ttyAMA1".
Proof.
  apply (disconnect_port_other_ports module_globals host_ok "/dev/ttyAMA0" _ "/dev/ttyAMA1").
  discriminate.
Defined.

(** X3.  [test_port] and [get_ports] only read: in any namespace, for any
    port and state, the state after the call is the state before it. *)
Theorem test_port_and_get_ports_read_only g port st :
  fst (test_port g port st) = st /\ fst (get_ports g st) = st.
Proof.
  split; [by rewrite test_port_unfold |].
  unfold get_ports, load_global, bind, gets, ret, raise.
  by destruct (bool_decide ("jsonify" ∈ g)).
Qed.

(** ** The keys of [uart_configs] *)

Lemma configure_uart_port_keys h port baud par st :
  dom (uart_configs (fst (configure_uart_port h port baud par st))) = dom (uart_configs st).
Proof.
  rewrite configure_uart_port_unfold. unfold after_close, after_failure.
  repeat case_match; cbn; try done; by rewrite dom_insert_lookup_L.
Qed.

Lemma disconnect_port_keys g h port st :
  dom (uart_configs (fst (disconnect_port g h port st))) = dom (uart_configs st).
Proof.
  rewrite disconnect_port_unfold. unfold after_drop.
  repeat case_match; cbn; try done; by rewrite dom_insert_lookup_L.
Qed.

Lemma run_op_keys op st : dom (uart_configs (run_op op st)) = dom (uart_configs st).
Proof.
  destruct op; cbn; [apply configure_uart_port_keys | apply disconnect_port_keys].
Qed.

(** X4.  No run of configure and disconnect operations, on any ports and
    with any host answers, adds a key to [uart_configs] or removes one: after
    every run from the initial state the keys are exactly the three ports of
    [UART_PORTS]. *)
Theorem uart_configs_keys_fixed (ops : list Op) :
  dom (uart_configs (run ops initial_state)) = list_to_set UART_PORTS.
Proof.
  assert (Hrun : forall st, dom (uart_configs (run ops st)) = dom (uart_configs st)).
  { induction ops as [| op ops IH]; intros st; [done |].
    cbn. fold (run ops (run_op op st)). by rewrite IH, run_op_keys. }
  rewrite Hrun. unfold initial_state. cbn. rewrite !dom_insert_L, dom_empty_L.
  set_solver.
Qed.

(** ** The answers of [configure_uart_port] *)

(** X5.  For a port that has its entry in [uart_configs],
    [configure_uart_port] never raises: it returns a flag and a message, and
    the flag is [True] exactly when the old handle (if any) closed without
    error, the device path was present and the open returned a handle. *)
Theorem configure_uart_port_answer h port baud par st :
  is_Some (uart_configs st !! port) ->
  exists ok msg,
    snd (configure_uart_port h port baud par st) = Returned (ok, msg) /\
    (ok = true <-> opens_successfully h port baud par st).
Proof.
  intros [c Hc]. rewrite configure_uart_port_unfold.
  unfold after_close, after_failure, opens_successfully. rewrite Hc.
  destruct (active_connections st !! port) as [ser |] eqn:E.
  - destruct (close_error h ser) as [e |] eqn:Hclose.
    + eexists _, _. split; [reflexivity |]. split; [done |].
      intros (Hcl & _). specialize (Hcl ser eq_refl). congruence.
    + destruct (path_exists h port) eqn:Hpath;
        [destruct (open_error h port baud (get_serial_parity par)) eqn:Hopen |];
        eexists _, _; (split; [reflexivity |]); split; try done;
        try (by intros (_ & ? & ?)).
      intros _. split; [| done]. intros s [= <-]. done.
  - destruct (path_exists h port) eqn:Hpath;
      [destruct (open_error h port baud (get_serial_parity par)) eqn:Hopen |];
      eexists _, _; (split; [reflexivity |]); split; try done;
      try (by intros (_ & ? & ?)).
Qed.

Lemma configure_uart_port_answer_witness :
  exists ok msg,
    snd (configure_uart_port host_no_device "/dev/ttyAMA2" 9600 "odd" initial_state) =
      Returned (ok, msg) /\
    (ok = true <-> opens_successfully host_no_device "/dev/ttyAMA2" 9600 "odd" initial_state).
Proof.
  apply (configure_uart_port_answer host_no_device "/dev/ttyAMA2" 9600 "odd" initial_state).
  exists default_config. reflexivity.
Defined.

(** X6.  When the open itself fails on a known port whose device path is
    present, the old handle has been closed and removed, no new one is kept,
    the status becomes error with baud rate and parity as they were, and the
    result is [False] with the message of the matching [except] branch:
    "Failed to configure ..." for a [SerialException], "Unexpected error: ..."
    for any other exception. *)
Theorem configure_uart_port_open_failure h port baud par st c e :
  uart_configs st !! port = Some c ->
  closes_cleanly h port st ->
  path_exists h port = true ->
  open_error h port baud (get_serial_parity par) = Some e ->
  configure_uart_port h port baud par st =
    ({| uart_configs :=
          <[port := {| baud_rate := baud_rate c; parity := parity c; status := error |}]>
            (uart_configs st);
        active_connections := delete port (active_connections st) |},
     Returned (false,
               match e with
               | SerialException _ => "Failed to configure " +:+ port +:+ ": " +:+ str e
               | _ => "Unexpected error: " +:+ str e
               end)).
Proof.
  intros Hc Hclose Hpath Hopen. rewrite configure_uart_port_unfold.
  unfold after_close, after_failure, failure_message. rewrite Hpath, Hopen, Hc.
  destruct (active_connections st !! port) as [ser |] eqn:E.
  - by rewrite (Hclose ser E).
  - by rewrite delete_id.
Qed.

Lemma configure_uart_port_open_failure_witness :
  snd (configure_uart_port host_open_refused "/dev/ttyAMA0" 9600 "none" initial_state) =
    Returned (false,
      "Failed to configure /dev/ttyAMA0: [Errno 13] could not open port /dev/ttyAMA0").
Proof.
  assert (Hc : uart_configs initial_state !! "/dev/ttyAMA0" = Some default_config)
    by reflexivity.
  assert (Hcl : closes_cleanly host_open_refused "/dev/ttyAMA0" initial_state)
    by (intros ser Hser; reflexivity).
  rewrite (configure_uart_port_open_failure host_open_refused "/dev/ttyAMA0" 9600 "none"
             initial_state default_config _ Hc Hcl eq_refl eq_refl).
  reflexivity.
Defined.

(** X7.  When closing the old handle raises inside [configure_uart_port],
    nothing else is attempted, whether or not the device path is there: the
    old handle stays in [active_connections], the status becomes error with
    baud rate and parity as they were, and the result is [False] with the
    message of the matching [except] branch. *)
Theorem configure_uart_port_close_failure h port baud par st c ser e :
  uart_configs st !! port = Some c ->
  active_connections st !! port = Some ser ->
  close_error h ser = Some e ->
  configure_uart_port h port baud par st =
    ({| uart_configs :=
          <[port := {| baud_rate := baud_rate c; parity := parity c; status := error |}]>
            (uart_configs st);
        active_connections := active_connections st |},
     Returned (false,
               match e with
               | SerialException _ => "Failed to configure " +:+ port +:+ ": " +:+ str e
               | _ => "Unexpected error: " +:+ str e
               end)).
Proof.
  intros Hc Hser Hclose. rewrite configure_uart_port_unfold.
  unfold after_failure, failure_message. by rewrite Hser, Hclose, Hc.
Qed.

Lemma configure_uart_port_close_failure_witness :
  let st := fst (configure_uart_port host_ok "/dev/ttyAMA0" 9600 "none" initial_state) in
  let r := configure_uart_port host_close_fails "/dev/ttyAMA0" 19200 "even" st in
  active_connections (fst r) !! "/dev/ttyAMA0" = Some (opened "/dev/ttyAMA0" 9600 "none") /\
  snd r = Returned (false, "Unexpected error: [Errno 5] Input/output error").
Proof.
  intros st r. subst r.
  assert (Hc : uart_configs st !! "/dev/ttyAMA0" =
               Some {| baud_rate := 9600; parity := "none"; status := connected |})
    by (vm_compute; reflexivity).
  assert (Hser : active_connections st !! "/dev/ttyAMA0" =
                 Some (opened "/dev/ttyAMA0" 9600 "none"))
    by (vm_compute; reflexivity).
  rewrite (configure_uart_port_close_failure host_close_fails "/dev/ttyAMA0" 19200 "even"
             st _ _ _ Hc Hser eq_refl).
  split; [exact Hser | reflexivity].
Defined.

(** X8.  Called with a port that has no entry in [uart_configs], on a host
    where the path exists and opens, [configure_uart_port] stores the new
    handle, then fails on [uart_configs[port]] with [KeyError]; the [except]
    branch fails on the same lookup, so the [KeyError] leaves the function
    and the handle stays in [active_connections]. *)
Theorem configure_uart_port_unknown_port h port baud par st :
  uart_configs st !! port = None ->
  closes_cleanly h port st ->
  path_exists h port = true ->
  open_error h port baud (get_serial_parity par) = None ->
  configure_uart_port h port baud par st =
    ({| uart_configs := uart_configs st;
        active_connections := <[port := opened port baud par]> (active_connections st) |},
     Raised (KeyError port)).
Proof.
  intros Hc Hclose Hpath Hopen. rewrite configure_uart_port_unfold.
  unfold after_close. rewrite Hpath, Hopen, Hc.
  destruct (active_connections st !! port) as [ser |] eqn:E; [| done].
  by rewrite (Hclose ser E), insert_delete_eq.
Qed.

Lemma configure_uart_port_unknown_port_witness :
  let r := configure_uart_port host_ok "/dev/ttyUSB0" 9600 "none" initial_state in
  snd r = Raised (KeyError "/dev/ttyUSB0") /\
  active_connections (fst r) !! "/dev/ttyUSB0" = Some (opened "/dev/ttyUSB0" 9600 "none").
Proof.
  assert (Hcl : closes_cleanly host_ok "/dev/ttyUSB0" initial_state)
    by (intros ser Hser; reflexivity).
  intros r. subst r.
  rewrite (configure_uart_port_unknown_port host_ok "/dev/ttyUSB0" 9600 "none"
             initial_state eq_refl Hcl eq_refl eq_refl).
  split; reflexivity.
Defined.

(** ** Composing calls *)

(** X9.  Configuring a port a second time with the same baud rate and
    parity, on a host where the handle closes, the path exists and the open
    succeeds, returns success again and leaves the state exactly as the first
    successful call left it. *)
Theorem configure_uart_port_again h1 h2 port baud par st :
  is_Some (uart_configs st !! port) ->
  opens_successfully h1 port baud par st ->
  close_error h2 (opened port baud par) = None ->
  path_exists h2 port = true ->
  open_error h2 port baud (get_serial_parity par) = None ->
  let s1 := fst (configure_uart_port h1 port baud par st) in
  configure_uart_port h2 port baud par s1 =
    (s1, Returned (true, "Port " +:+ port +:+ " configured successfully")).
Proof.
  intros [c Hc] Hopen1 Hclose2 Hpath2 Hopen2 s1. subst s1.
  rewrite (configure_uart_port_success h1 port baud par st c Hc Hopen1). cbn.
  fold (opened port baud par).
  set (c1 := {| baud_rate := baud; parity := par; status := connected |}).
  set (s1 := {| uart_configs := <[port := c1]> (uart_configs st);
                active_connections := <[port := opened port baud par]> (active_connections st) |}).
  assert (Hc1 : uart_configs s1 !! port = Some c1) by apply lookup_insert_eq.
  assert (Hopen : opens_successfully h2 port baud par s1).
  { split; [| done]. intros ser Hser. cbn in Hser.
    rewrite lookup_insert_eq in Hser. by injection Hser as <-. }
  rewrite (configure_uart_port_success h2 port baud par s1 c1 Hc1 Hopen).
  subst s1. cbn. fold (opened port baud par). by rewrite !insert_insert_eq.
Qed.

Lemma configure_uart_port_again_witness :
  let s1 := fst (configure_uart_port host_ok "/dev/ttyAMA0" 57600 "odd" initial_state) in
  configure_uart_port host_ok "/dev/ttyAMA0" 57600 "odd" s1 =
    (s1, Returned (true, "Port /dev/ttyAMA0 configured successfully")).
Proof.
  assert (Hc : is_Some (uart_configs initial_state !! "/dev/ttyAMA0"))
    by (exists default_config; reflexivity).
  assert (Hopen : opens_successfully host_ok "/dev/ttyAMA0" 57600 "odd" initial_state).
  { split; [| split]; [intros ser Hser; reflexivity | reflexivity | reflexivity]. }
  exact (configure_uart_port_again host_ok host_ok "/dev/ttyAMA0" 57600 "odd" initial_state
           Hc Hopen eq_refl eq_refl eq_refl).
Defined.

(** X10.  A successful configure followed by a disconnect whose close
    succeeds leaves the port without a handle and with status disconnected,
    and keeps the configured baud rate and parity in [uart_configs]. *)
Theorem configure_then_disconnect g h1 h2 port baud par st :
  port ∈ UART_PORTS ->
  is_Some (uart_configs st !! port) ->
  opens_successfully h1 port baud par st ->
  close_error h2 (opened port baud par) = None ->
  let s1 := fst (configure_uart_port h1 port baud par st) in
  let s2 := fst (disconnect_port g h2 port s1) in
  uart_configs s2 !! port =
    Some {| baud_rate := baud; parity := par; status := disconnected |} /\
  active_connections s2 !! port = None.
Proof.
  intros Hport [c Hc] Hopen1 Hclose2 s1 s2. subst s2 s1.
  rewrite (configure_uart_port_success h1 port baud par st c Hc Hopen1). cbn.
  fold (opened port baud par).
  rewrite disconnect_port_unfold, (in_UART_PORTS _ Hport). cbn.
  rewrite lookup_insert_eq, Hclose2. unfold after_drop.
  rewrite lookup_insert_eq. cbn.
  by rewrite lookup_insert_eq, lookup_delete_eq.
Qed.

Lemma configure_then_disconnect_witness :
  let s1 := fst (configure_uart_port host_ok "/dev/ttyAMA1" 230400 "even" initial_state) in
  let s2 := fst (disconnect_port module_globals host_ok "/dev/ttyAMA1" s1) in
  uart_configs s2 !! "/dev/ttyAMA1" =
    Some {| baud_rate := 230400; parity := "even"; status := disconnected |} /\
  active_connections s2 !! "/dev/ttyAMA1" = None.
Proof.
  assert (Hport : "/dev/ttyAMA1" ∈ UART_PORTS)
    by (apply (bool_decide_unpack _); vm_compute; exact I).
  assert (Hc : is_Some (uart_configs initial_state !! "/dev/ttyAMA1"))
    by (exists default_config; reflexivity).
  assert (Hopen : opens_successfully host_ok "/dev/ttyAMA1" 230400 "even" initial_state).
  { split; [| split]; [intros ser Hser; reflexivity | reflexivity | reflexivity]. }
  exact (configure_then_disconnect module_globals host_ok host_ok "/dev/ttyAMA1" 230400 "even"
           initial_state Hport Hc Hopen eq_refl).
Defined.

(** ** The module as it is served *)

(** X11.  As the module defines it, [disconnect_port] never returns a
    response: for every host, port and state the call ends in [NameError] for
    [jsonify], also after it has closed the handle and set the status. *)
Theorem disconnect_port_always_raises h port st :
  snd (disconnect_port module_globals h port st) = Raised (NameError "jsonify").
Proof.
  rewrite disconnect_port_unfold. unfold after_drop, json_result.
  rewrite jsonify_unbound. by repeat case_match.
Qed.

Lemma initial_config (port : string) :
  port ∈ UART_PORTS -> uart_configs initial_state !! port = Some default_config.
Proof.
  intros Hport. unfold UART_PORTS in Hport.
  repeat (apply elem_of_cons in Hport as [-> | Hport]; [reflexivity |]).
  by apply elem_of_nil in Hport.
Qed.

Lemma serve_initial (rq : Request) :
  serve rq initial_state = (initial_state, Raised (NameError "jsonify")).
Proof.
  destruct rq as [| h json | h port | port]; cbn [serve].
  - reflexivity.
  - reflexivity.
  - rewrite disconnect_port_unfold. unfold json_result. rewrite jsonify_unbound.
    destruct (bool_decide (port ∉ UART_PORTS)) eqn:Hport; [reflexivity |].
    apply bool_decide_eq_false in Hport. apply dec_stable in Hport.
    unfold after_drop, json_result. rewrite jsonify_unbound.
    cbn [active_connections initial_state]. rewrite lookup_empty.
    rewrite (initial_config port Hport). cbn.
    rewrite insert_id by (by apply initial_config). reflexivity.
  - rewrite test_port_unfold. unfold json_result. by rewrite jsonify_unbound.
Qed.

(** X12.  Used through its four API view functions, the module never leaves
    its initial state: whatever calls are made, in whatever order and on
    whatever host, every one of them ends in [NameError] for [jsonify], no
    port is ever opened and [uart_configs] stays as it was created. *)
Theorem served_module_is_inert (rqs : list Request) :
  serve_all rqs initial_state =
    (initial_state, (fun _ => Raised (NameError "jsonify")) <$> rqs).
Proof.
  induction rqs as [| rq rqs IH]; [reflexivity |].
  cbn [serve_all]. rewrite serve_initial, IH. reflexivity.
Qed.

(** ** What every run keeps *)

Lemma run_op_handles_match op st : handles_match st -> handles_match (run_op op st).
Proof.
  intros Hinv p ser c. destruct op as [h port baud par | h port]; cbn [run_op].
  - rewrite configure_uart_port_unfold. unfold after_close, after_failure.
    repeat case_match; cbn; destruct (decide (p = port)) as [-> | Hne];
      rewrite ?lookup_insert_eq, ?lookup_delete_eq;
      rewrite ?lookup_insert_ne, ?lookup_delete_ne by done;
      intros Hs Hc'; simplify_eq; cbn; eauto;
      try (by (edestruct Hinv as (? & ? & ?); eauto)).
  - rewrite disconnect_port_unfold. unfold after_drop.
    repeat case_match; cbn; destruct (decide (p = port)) as [-> | Hne];
      rewrite ?lookup_insert_eq, ?lookup_delete_eq;
      rewrite ?lookup_insert_ne, ?lookup_delete_ne by done;
      intros Hs Hc'; simplify_eq; cbn; eauto;
      try (by (edestruct Hinv as (? & ? & ?); eauto)).
Qed.

Lemma run_op_quiet op st : quiet st -> quiet (run_op op st).
Proof.
  intros Hinv p. unfold status_of. destruct op as [h port baud par | h port]; cbn [run_op].
  - rewrite configure_uart_port_unfold. unfold after_close, after_failure.
    repeat case_match; cbn; destruct (decide (p = port)) as [-> | Hne];
      rewrite ?lookup_insert_eq, ?lookup_delete_eq;
      rewrite ?lookup_insert_ne, ?lookup_delete_ne by done;
      cbn; intros Hs; simplify_eq; try done;
      try (by apply Hinv);
      try (by (specialize (Hinv port); unfold status_of in Hinv;
               rewrite Hs in Hinv; specialize (Hinv eq_refl); congruence));
      try (by match goal with
              | Hn : uart_configs st !! port = None |- _ => rewrite Hn in Hs
              end).
  - rewrite disconnect_port_unfold. unfold after_drop.
    repeat case_match; cbn; destruct (decide (p = port)) as [-> | Hne];
      rewrite ?lookup_insert_eq, ?lookup_delete_eq;
      rewrite ?lookup_insert_ne, ?lookup_delete_ne by done;
      cbn; intros Hs; simplify_eq; try done;
      try (by apply Hinv);
      try (by (specialize (Hinv port); unfold status_of in Hinv;
               rewrite Hs in Hinv; specialize (Hinv eq_refl); congruence));
      try (by match goal with
              | Hn : uart_configs st !! port = None |- _ => rewrite Hn in Hs
              end).
Qed.

Lemma run_keeps (P : State -> Prop) (ops : list Op) :
  (forall op st, P st -> P (run_op op st)) -> forall st, P st -> P (run ops st).
Proof.
  intros Hstep. induction ops as [| op ops IH]; intros st Hst; [done |].
  cbn. apply IH, Hstep, Hst.
Qed.

(** X13.  After every run of configure and disconnect operations from the
    initial state, on any ports and whatever the host answers, a handle that
    is stored for a port was opened on that port with the baud rate and the
    parity that [uart_configs] records for it. *)
Theorem handles_match_configs (ops : list Op) : handles_match (run ops initial_state).
Proof.
  apply run_keeps; [apply run_op_handles_match |].
  intros p ser c Hs. cbn in Hs. by rewrite lookup_empty in Hs.
Qed.

(** X14.  After every such run, a port whose status is disconnected has no
    handle: the half of the handle/status relation that no failure path
    breaks. *)
Theorem disconnected_has_no_handle (ops : list Op) : quiet (run ops initial_state).
Proof.
  apply run_keeps; [apply run_op_quiet |].
  intros p _. cbn. apply lookup_empty.
Qed.

(** ** [configure_port] in a namespace that binds the flask names *)

(** X15.  In a namespace that binds [request] and [jsonify], when
    [get_json] returns a JSON object (with string, integer or null values)
    that is empty, or whose port, baud rate or parity is outside its list (a
    missing key counting as [None]), [configure_port] answers
    [success: False] with code 400, and neither [uart_configs] nor
    [active_connections] is touched. *)
Theorem configure_port_rejects_without_configuring g h (data : gmap string PyVal) st :
  "request" ∈ g -> "jsonify" ∈ g ->
  data = ∅ \/
  str_member (dict_get data "port") UART_PORTS = None \/
  int_member (dict_get data "baud_rate") VALID_BAUD_RATES = None \/
  str_member (dict_get data "parity") VALID_PARITY = None ->
  exists msg,
    configure_port g h (Some data) st = (st, Returned (MessagePayload false msg, 400)).
Proof.
  intros Hr Hj Hbad.
  unfold configure_port, respond, load_global, try_except, bind, ret.
  rewrite (bool_decide_eq_true_2 _ Hr), (bool_decide_eq_true_2 _ Hj).
  destruct (bool_decide (data = ∅)) eqn:Hempty; [by eexists |].
  apply bool_decide_eq_false in Hempty.
  destruct (str_member (dict_get data "port") UART_PORTS) as [port |] eqn:Hp;
    [| by eexists].
  destruct (int_member (dict_get data "baud_rate") VALID_BAUD_RATES) as [baud |] eqn:Hb;
    [| by eexists].
  destruct (str_member (dict_get data "parity") VALID_PARITY) as [par |] eqn:Hpar;
    [| by eexists].
  by destruct Hbad as [? | [? | [? | ?]]].
Qed.

Lemma configure_port_rejects_witness :
  exists msg,
    configure_port globals_with_flask_names host_ok
      (Some (<["port" := PyStr "/dev/ttyAMA0"]> (<["baud_rate" := PyStr "9600"]> ∅)))
      initial_state =
    (initial_state, Returned (MessagePayload false msg, 400)).
Proof.
  apply configure_port_rejects_without_configuring.
  - apply (bool_decide_unpack _). vm_compute. exact I.
  - apply (bool_decide_unpack _). vm_compute. exact I.
  - right. right. left. reflexivity.
Defined.

Lemma configure_uart_port_no_raise h port baud par st :
  is_Some (uart_configs st !! port) ->
  exists ok msg, snd (configure_uart_port h port baud par st) = Returned (ok, msg).
Proof.
  intros [c Hc]. rewrite configure_uart_port_unfold.
  unfold after_close, after_failure. rewrite Hc.
  repeat case_match; cbn; by eexists _, _.
Qed.

(** X16.  In such a namespace, a request that passes the three checks, for a
    port that has its entry in [uart_configs], leaves the state exactly as
    [configure_uart_port] leaves it and relays its result: on [True] code 200
    with the message and the port's configuration as it is after the call,
    on [False] code 500 with the message. *)
Theorem configure_port_relays g h (data : gmap string PyVal) st port baud par :
  "request" ∈ g -> "jsonify" ∈ g ->
  data <> ∅ ->
  str_member (dict_get data "port") UART_PORTS = Some port ->
  int_member (dict_get data "baud_rate") VALID_BAUD_RATES = Some baud ->
  str_member (dict_get data "parity") VALID_PARITY = Some par ->
  is_Some (uart_configs st !! port) ->
  let r := configure_uart_port h port baud par st in
  exists ok msg c,
    snd r = Returned (ok, msg) /\
    uart_configs (fst r) !! port = Some c /\
    configure_port g h (Some data) st =
      (fst r,
       Returned (if ok : bool then (ConfigPayload true msg c, 200)
                 else (MessagePayload false msg, 500))).
Proof.
  intros Hr Hj Hdata Hp Hb Hpar Hc. cbv zeta.
  destruct (configure_uart_port_no_raise h port baud par st Hc) as (ok & msg & Hret).
  assert (Hc' : is_Some (uart_configs (fst (configure_uart_port h port baud par st)) !! port)).
  { apply elem_of_dom. rewrite configure_uart_port_keys. by apply elem_of_dom. }
  destruct Hc' as [c Hc']. exists ok, msg, c. split; [exact Hret |]. split; [exact Hc' |].
  unfold configure_port, respond, load_global, try_except, bind, ret, config_of.
  rewrite (bool_decide_eq_true_2 _ Hr), (bool_decide_eq_true_2 _ Hj).
  rewrite (bool_decide_eq_false_2 _ Hdata), Hp, Hb, Hpar.
  destruct (configure_uart_port h port baud par st) as [st' o]. cbn in *. subst o. cbn.
  destruct ok; [by rewrite Hc' | done].
Qed.

Lemma configure_port_relays_witness :
  exists ok msg c,
    snd (configure_uart_port host_no_device "/dev/ttyAMA0" 9600 "none" initial_state) =
      Returned (ok, msg) /\
    uart_configs (fst (configure_uart_port host_no_device "/dev/ttyAMA0" 9600 "none"
                         initial_state)) !! "/dev/ttyAMA0" = Some c /\
    configure_port globals_with_flask_names host_no_device
      (Some (<["port" := PyStr "/dev/ttyAMA0"]>
               (<["baud_rate" := PyInt 9600]> (<["parity" := PyStr "none"]> ∅))))
      initial_state =
      (fst (configure_uart_port host_no_device "/dev/ttyAMA0" 9600 "none" initial_state),
       Returned (if ok : bool then (ConfigPayload true msg c, 200)
                 else (MessagePayload false msg, 500))).
Proof.
  apply (configure_port_relays globals_with_flask_names host_no_device _ initial_state
           "/dev/ttyAMA0" 9600 "none").
  - apply (bool_decide_unpack _). vm_compute. exact I.
  - apply (bool_decide_unpack _). vm_compute. exact I.
  - intros Hempty. apply (f_equal (fun m => m !! "port")) in Hempty. discriminate.
  - reflexivity.
  - reflexivity.
  - reflexivity.
  - exists default_config. reflexivity.
Defined.

(** ** The two parity tables *)

(** X17.  Every parity that passes the check against [VALID_PARITY] is a
    key of the parity map of [get_serial_parity], so the default is never what
    a validated parity gets, and two different validated parities get two
    different pyserial constants. *)
Theorem valid_parity_has_own_constant (p q : string) :
  p ∈ VALID_PARITY -> q ∈ VALID_PARITY ->
  is_Some (parity_map !! PyStr.lower p) /\
  (get_serial_parity p = get_serial_parity q -> p = q).
Proof.
  unfold VALID_PARITY. intros Hp Hq.
  repeat (apply elem_of_cons in Hp as [-> | Hp]);
    try (by apply elem_of_nil in Hp);
    repeat (apply elem_of_cons in Hq as [-> | Hq]);
    try (by apply elem_of_nil in Hq);
    (split; [by eexists | by vm_compute]).
Qed.

Lemma valid_parity_has_own_constant_witness :
  is_Some (parity_map !! PyStr.lower "even") /\
  (get_serial_parity "even" = get_serial_parity "odd" -> "even" = "odd").
Proof.
  apply valid_parity_has_own_constant; apply (bool_decide_unpack _); vm_compute; exact I.
Defined.
